(** * The libxc build recipe (var/spack/repos/builtin/packages/libxc/package.py)

    A shallow embedding of the [Libxc] package class: its version table,
    its variant and conflict declarations, the [libs] locator, the
    environment preparer [setup_build_environment] and the configure
    argument builder [configure_args], followed by the properties the
    recipe's description states about them.

    The recipe is glue over an orchestrating framework (version ordering,
    spec matching, library search, environment modifications).  The pieces
    of the framework the recipe calls are modelled in the first part of the
    file and are marked as such. *)

From Stdlib Require Import NArith Ascii String.
From stdpp Require Import gmap strings list.

Open Scope string_scope.
Open Scope list_scope.
Open Scope stdpp_scope.

(** * Version identifiers *)

Module Ver.

(** A version is the tuple of its numeric and alphabetic segments:
    [Version('4.3.2').version = (4, 3, 2)]. *)
Inductive segment :=
| Num (n : N)
| Alpha (s : string).

Definition ver := list segment.

Inductive char_class := Digit | Letter.

Definition char_class_eqb (a b : char_class) : bool :=
  match a, b with
  | Digit, Digit | Letter, Letter => true
  | _, _ => false
  end.

Definition classify (c : ascii) : option char_class :=
  let n := N_of_ascii c in
  if (48 <=? n)%N && (n <=? 57)%N then Some Digit
  else if ((65 <=? n)%N && (n <=? 90)%N) || ((97 <=? n)%N && (n <=? 122)%N)
       then Some Letter
       else None.

(** The maximal runs of digits and of letters of a string, in order; every
    other character separates two runs. *)
Fixpoint runs (cur : option (char_class * string)) (s : string)
  : list (char_class * string) :=
  match s with
  | EmptyString => match cur with Some r => [r] | None => [] end
  | String c s' =>
      match classify c, cur with
      | None, Some r => r :: runs None s'
      | None, None => runs None s'
      | Some k, None => runs (Some (k, String c EmptyString)) s'
      | Some k, Some (k', acc) =>
          if char_class_eqb k k'
          then runs (Some (k, acc +:+ String c EmptyString)) s'
          else (k', acc) :: runs (Some (k, String c EmptyString)) s'
      end
  end.

Fixpoint int_of_digits (acc : N) (s : string) : N :=
  match s with
  | EmptyString => acc
  | String c s' => int_of_digits (10 * acc + (N_of_ascii c - 48))%N s'
  end.

Definition segment_of_run (r : char_class * string) : segment :=
  match r with
  | (Digit, s) => Num (int_of_digits 0 s)
  | (Letter, s) => Alpha s
  end.

(** Modelled from the spec: the orchestrator's constructor of version
    identifiers, which the recipe calls on its literals ('4.0.0', '5.0.0',
    ...); it is not part of the recipe.  A version string is cut into its
    digit runs, read as integers, and its letter runs. *)
Definition Version (s : string) : ver :=
  map segment_of_run (runs None s).

Definition segment_eqb (a b : segment) : bool :=
  match a, b with
  | Num x, Num y => (x =? y)%N
  | Alpha x, Alpha y => (x =? y)%string
  | _, _ => false
  end.

(** Names of moving targets, which sort above every numbered release. *)
Definition infinity_versions : list string :=
  ["develop"; "main"; "master"; "head"; "trunk"].

Fixpoint index (x : string) (l : list string) : option nat :=
  match l with
  | [] => None
  | y :: l' => if (x =? y)%string then Some 0 else S <$> index x l'
  end.

Definition infinity_rank (a : segment) : option nat :=
  match a with
  | Alpha s => index s infinity_versions
  | Num _ => None
  end.

(** Order of two distinct segments. *)
Definition segment_lt (a b : segment) : bool :=
  match infinity_rank a, infinity_rank b with
  | Some i, Some j => (j <? i)%nat
  | Some _, None => false
  | None, Some _ => true
  | None, None =>
      match a, b with
      | Num x, Num y => (x <? y)%N
      | Alpha x, Alpha y => String.ltb x y
      | Alpha _, Num _ => true
      | Num _, Alpha _ => false
      end
  end.

(** Modelled from the spec: the orchestrator's order on versions, used by
    the recipe as [self.version < Version('4.0.0')]; it is not part of the
    recipe.  Segments are compared left to right, numbers sort above
    letters, and of two versions with a common prefix the longer one is
    the later one. *)
Fixpoint version_lt (a b : ver) : bool :=
  match a, b with
  | x :: a', y :: b' =>
      if segment_eqb x y then version_lt a' b' else segment_lt x y
  | [], _ :: _ => true
  | _, [] => false
  end.

Fixpoint version_eqb (a b : ver) : bool :=
  match a, b with
  | [], [] => true
  | x :: a', y :: b' => segment_eqb x y && version_eqb a' b'
  | _, _ => false
  end.

(** [is_prefix p v]: [v] refines [p] (4.3.2 refines 4). *)
Fixpoint is_prefix (p v : ver) : bool :=
  match p, v with
  | [], _ => true
  | x :: p', y :: v' => segment_eqb x y && is_prefix p' v'
  | _ :: _, [] => false
  end.

(** Modelled from the spec: membership of a version in the open-ended
    range [@:hi] of a constraint, as the orchestrator decides it; it is
    not part of the recipe.  The range holds every version up to [hi] and
    every version of the [hi] series. *)
Definition in_range_upto (hi v : ver) : bool :=
  version_eqb hi v || version_lt v hi || is_prefix hi v.

End Ver.

Export Ver.

(** Versions are dictionary keys of the release table. *)
#[global] Instance segment_eq_dec : EqDecision segment.
Proof. solve_decision. Defined.

#[global] Instance segment_countable : Countable segment :=
  inj_countable'
    (λ a, match a with Num n => inl n | Alpha s => inr s end)
    (λ x, match x with inl n => Num n | inr s => Alpha s end)
    (λ a, match a with Num _ => eq_refl | Alpha _ => eq_refl end).

(** * Specs: the selection a build instance is made for *)

(** The variants of the package: [shared] is declared by the recipe
    (default [True]); [cuda] (default [False]) and the multi-valued
    [cuda_arch] (default [('none',)]) come with the [CudaPackage] base. *)
Record Variants := {
  shared : bool;
  cuda : bool;
  cuda_arch : list string
}.

Definition default_variants : Variants :=
  {| shared := true; cuda := false; cuda_arch := ["none"] |}.

(** The caller's most recent dependency request. *)
Record Query := {
  extra_parameters : list string
}.

#[local] Set Warnings "-register-all".

(** A file tree, and an installation prefix: a root path and what lies
    under it. *)
Inductive entry :=
| File (name : string)
| Directory (name : string) (entries : list entry).

Record Prefix := {
  path : string;
  contents : list entry
}.

Record Spec := {
  version : ver;
  variants : Variants;
  last_query : Query;
  cuda_dep_prefix : string       (* spec['cuda'].prefix *)
}.

(** Constraints, as the recipe writes them in its directives and in its
    membership tests: ['+cuda'], ['+shared +cuda'], ['@:4']. *)
Inductive constraint :=
| VariantOn (name : string)        (* +name *)
| VariantOff (name : string)       (* ~name *)
| VersionUpTo (hi : ver).          (* @:hi *)

Definition variant_flag (s : Spec) (name : string) : option bool :=
  if (name =? "shared")%string then Some (shared (variants s))
  else if (name =? "cuda")%string then Some (cuda (variants s))
  else None.

Definition satisfies_atom (s : Spec) (c : constraint) : bool :=
  match c with
  | VariantOn n => default false (variant_flag s n)
  | VariantOff n => default false (negb <$> variant_flag s n)
  | VersionUpTo hi => in_range_upto hi (version s)
  end.

(** Modelled from the spec: the orchestrator's test that a selection meets a
    constraint ([c in spec], and the predicates of conflict rules); it is
    not part of the recipe.  A constraint holds when each of its parts
    does. *)
Definition satisfies (s : Spec) (c : list constraint) : bool :=
  forallb (satisfies_atom s) c.

(** * The package object *)

Record Libxc := {
  spec : Spec;
  prefix : Prefix;
  compiler_name : string;                 (* self.compiler.name *)
  which : string → option string;         (* which(tool): a tool on the PATH *)
  spack_cc : string                       (* spack_cc: the build compiler *)
}.

Definition self_version (self : Libxc) : ver := version (spec self).

(** ** Release table *)

(** The [version(...)] directives, in the order of the recipe. *)
Definition version_directives : list (string * string) :=
  [ ("5.0.0", "1cdc57930f7b57da4eb9b2c55a50ba1c2c385936ddaf5582fee830994461a892");
    ("4.3.4", "a8ee37ddc5079339854bd313272856c9d41a27802472ee9ae44b58ee9a298337");
    ("4.3.2", "bc159aea2537521998c7fb1199789e1be71e04c4b7758d58282622e347603a6f");
    ("4.2.3", "02e49e9ba7d21d18df17e9e57eae861e6ce05e65e966e1e832475aa09e344256");
    ("3.0.0", "5542b99042c09b2925f2e3700d769cda4fb411b476d446c833ea28c6bfa8792a");
    ("2.2.2", "6ca1d0bb5fdc341d59960707bc67f23ad54de8a6018e19e02eee2b16ea7cc642");
    ("2.2.1", "ade61c1fa4ed238edd56408fd8ee6c2e305a3d5753e160017e2a71817c98fd00") ].

(** Each directive stores its checksum under its version; a later directive
    for the same version would replace an earlier one. *)
Definition versions : gmap ver string :=
  foldl (λ table d, <[Version d.1 := d.2]> table) ∅ version_directives.

(** ** Conflict rules *)

Record conflict := {
  conflict_spec : list constraint;
  when_spec : list constraint;
  msg : string
}.

(** The [conflicts(...)] directives, in the order of the recipe. *)
Definition conflicts : list conflict :=
  [ {| conflict_spec := [VariantOn "shared"; VariantOn "cuda"];
       when_spec := [];
       msg := "Only ~shared supported with +cuda" |};
    {| conflict_spec := [VariantOn "cuda"];
       when_spec := [VersionUpTo (Version "4")];
       msg := "CUDA support only in libxc 5.0.0 and above" |} ].

(** * Library search *)

(** A found file, as the components of its path from the root on. *)
Definition found := list string.

Fixpoint find_entry (name : string) (dir : found) (recursive : bool) (e : entry)
  : list found :=
  match e with
  | File n => if (n =? name)%string then [dir ++ [n]] else []
  | Directory n es =>
      if recursive
      then flat_map (find_entry name (dir ++ [n]) recursive) es
      else []
  end.

Definition find (root : Prefix) (names : list string) (recursive : bool)
  : list found :=
  flat_map
    (λ name, flat_map (find_entry name [path root] recursive) (contents root))
    names.

Definition library_suffix (shared : bool) : string :=
  if shared then "so" else "a".

(** The failure of a search that finds nothing. *)
Inductive search_error := NoLibrariesError.

(** Modelled from the spec: the orchestrator's library search, which the
    locator calls; it is not part of the recipe.  The prefix is searched,
    recursively when asked, for the files that carry one of the library
    names with the suffix of the wanted kind (shared or static), and the
    matches are returned in order; when no file matches, the search
    reports a failure, which the locator hands on as it is. *)
Definition find_libraries (libraries : list string) (root : Prefix)
    (shared recursive : bool) : search_error + list found :=
  match
    find root (map (λ lib, lib +:+ "." +:+ library_suffix shared) libraries)
         recursive
  with
  | [] => inl NoLibrariesError
  | files => inr files
  end.

(** The files of a result: none when the search failed. *)
Definition returned (result : search_error + list found) : list found :=
  match result with
  | inr files => files
  | inl _ => []
  end.

(** Every file under an entry, and under a prefix, as paths. *)
Fixpoint files_in (dir : found) (e : entry) : list found :=
  match e with
  | File n => [dir ++ [n]]
  | Directory n es => flat_map (files_in (dir ++ [n])) es
  end.

Definition files_under (root : Prefix) : list found :=
  flat_map (files_in [path root]) (contents root).

(** The call the locator makes, kept as data. *)
Record search := Lookup {
  search_libraries : list string;
  search_root : Prefix;
  search_shared : bool;
  search_recursive : bool
}.

(** * The locator: [Libxc.libs] *)

Section Locator.

Context {R : Type}.
Variable find_libraries_ : list string → Prefix → bool → bool → R.

Definition libs_with (self : Libxc) : R :=
  let query_parameters := extra_parameters (last_query (spec self)) in
  let libraries := ["libxc"] in
  let shared :=
    shared (variants (spec self))
    && negb (bool_decide ("static" ∈ query_parameters)) in
  let libraries :=
    if bool_decide ("fortran" ∈ query_parameters) then
      if version_lt (self_version self) (Version "4.0.0")
      then ["libxcf90"] ++ libraries
      else ["libxcf90"; "libxcf03"] ++ libraries
    else libraries in
  find_libraries_ libraries (prefix self) shared true.

End Locator.

(** The property itself, and the search it asks for. *)
Definition libs : Libxc → search_error + list found :=
  libs_with find_libraries.
Definition libs_search : Libxc → search := libs_with Lookup.

(** * Build environment *)

Inductive modification :=
| SetEnv (name value : string)
| AppendFlagsEnv (name value sep : string).

(** The object handed to [setup_build_environment]: the modifications
    requested so far, oldest first. *)
Definition EnvironmentModifications := list modification.

Inductive exn := IndexError.

(** Code that runs against the environment object: it may add requests to
    it, and either returns or raises. *)
Definition Build (A : Type) : Type :=
  EnvironmentModifications → (exn + A) * EnvironmentModifications.

#[global] Instance Build_ret : MRet Build := λ A x env, (inr x, env).

#[global] Instance Build_bind : MBind Build := λ A B f m env,
  match m env with
  | (inr x, env') => f x env'
  | (inl e, env') => (inl e, env')
  end.

Definition raise {A} (e : exn) : Build A := λ env, (inl e, env).

(** [env.set(name, value)] *)
Definition env_set (name value : string) : Build unit :=
  λ env, (inr tt, env ++ [SetEnv name value]).

(** [env.append_flags(name, value)], with the default separator. *)
Definition env_append_flags (name value : string) : Build unit :=
  λ env, (inr tt, env ++ [AppendFlagsEnv name value " "]).

(** [t[i]] on a tuple. *)
Definition getitem {A} (t : list A) (i : nat) : Build A :=
  match t !! i with
  | Some x => mret x
  | None => raise IndexError
  end.

Fixpoint ends_with_slash (s : string) : bool :=
  match s with
  | EmptyString => false
  | String c EmptyString => (c =? "/")%char
  | String _ s' => ends_with_slash s'
  end.

(** [os.path.join(a, b)] *)
Definition path_join (a b : string) : string :=
  if String.prefix "/" b then b
  else if (a =? "")%string || ends_with_slash a then a +:+ b
  else a +:+ "/" +:+ b.

(** [p.bin.nvcc] on a prefix [p] *)
Definition prefix_bin_nvcc (p : string) : string :=
  path_join (path_join p "bin") "nvcc".

(** * The environment preparer: [Libxc.setup_build_environment] *)

Definition setup_build_environment (self : Libxc) : Build unit :=
  let optflags := "-O2" in
  optflags ←
    (if (compiler_name self =? "intel")%string then
       let optflags := optflags +:+ " -xSSE4.2 -axAVX,CORE-AVX2 -ipo" in
       (if which self "xiar" is Some _ then env_set "AR" "xiar" else mret tt);;
       mret optflags
     else mret optflags);
  env_append_flags "CFLAGS" optflags;;
  env_append_flags "FCFLAGS" optflags;;
  if satisfies (spec self) [VariantOn "cuda"] then
    let nvcc := prefix_bin_nvcc (cuda_dep_prefix (spec self)) in
    env_set "CCLD" (nvcc +:+ " -ccbin " +:+ spack_cc self);;
    env_set "CC" (nvcc +:+ " -x cu -ccbin " +:+ spack_cc self);;
    cuda_arch ← getitem (cuda_arch (variants (spec self))) 0;
    if negb (cuda_arch =? "none")%string
    then env_append_flags "CFLAGS" ("-arch=sm_" +:+ cuda_arch)
    else mret tt
  else mret tt.

(** * The configure-argument builder: [Libxc.configure_args] *)

Definition configure_args (self : Libxc) : list string :=
  let spec := spec self in
  let args :=
    [ if satisfies spec [VariantOn "shared"]
      then "--enable-shared" else "--disable-shared";
      if satisfies spec [VariantOn "cuda"]
      then "--enable-cuda" else "--disable-cuda" ] in
  args.

(** * The orchestrator around the recipe *)

(** The value of a variable after flags are appended to it: they follow the
    present value, or stand alone when the variable is empty or absent. *)
Definition appended (old : option string) (value sep : string) : string :=
  match old with
  | Some old => if (old =? "")%string then value else old +:+ sep +:+ value
  | None => value
  end.

(** One requested modification, carried out on a variable set. *)
Definition execute (m : modification) (environ : gmap string string)
  : gmap string string :=
  match m with
  | SetEnv name value => <[name := value]> environ
  | AppendFlagsEnv name value sep =>
      <[name := appended (environ !! name) value sep]> environ
  end.

(** Modelled from the spec: how the orchestrator carries the requested
    modifications out on the variable set of the build; it is not part of
    the recipe.  A set request overrides the variable; an append request
    adds its flags after the present value, or sets the variable when it is
    empty or absent. *)
Definition apply_modifications (env : EnvironmentModifications)
    (environ : gmap string string) : gmap string string :=
  foldl (λ environ m, execute m environ) environ env.

(** Modelled from the spec: conflict validation, done by the orchestrator
    before any build step; it is not part of the recipe.  A rule is violated
    by a selection that meets both its predicate and its condition; the
    messages of the violated rules are reported. *)
Definition violated (s : Spec) (c : conflict) : bool :=
  satisfies s (when_spec c) && satisfies s (conflict_spec c).

Definition conflict_messages (s : Spec) : list string :=
  msg <$> filter (λ c, violated s c = true) conflicts.

Inductive outcome :=
| ConflictsInSpecError (messages : list string)
| BuildEnvironmentError (e : exn)
| Configured (env : EnvironmentModifications) (args : list string).

(** Modelled from the spec: the start of a build as the orchestrator runs
    it; it is not part of the recipe.  The rules are validated first and a
    violation aborts; only then the environment is prepared and the
    configure arguments are built, for the compilation that follows. *)
Definition build (self : Libxc) : outcome :=
  match conflict_messages (spec self) with
  | [] =>
      match setup_build_environment self [] with
      | (inr _, env) => Configured env (configure_args self)
      | (inl e, _) => BuildEnvironmentError e
      end
  | messages => ConflictsInSpecError messages
  end.

(** * Sample build instances *)

Definition no_tools : string → option string := λ _, None.

Definition intel_tools : string → option string :=
  λ tool, if (tool =? "xiar")%string then Some "/opt/intel/bin/xiar" else None.

(** What an installation of the library leaves under its prefix. *)
Definition installed : Prefix :=
  {| path := "/opt/libxc";
     contents :=
       [ Directory "include" [File "xc.h"];
         Directory "lib"
           [ File "libxc.a"; File "libxc.so";
             File "libxcf90.a"; File "libxcf90.so";
             File "libxcf03.a"; File "libxcf03.so";
             Directory "pkgconfig" [File "libxc.pc"] ] ] |}.

(** A prefix in which nothing was installed. *)
Definition empty_prefix : Prefix := {| path := "/opt/libxc"; contents := [] |}.

Definition instance (v : string) (vs : Variants) (query : list string)
    (compiler : string) (tools : string → option string) : Libxc :=
  {| spec := {| version := Version v;
                variants := vs;
                last_query := {| extra_parameters := query |};
                cuda_dep_prefix := "/opt/cuda" |};
     prefix := installed;
     compiler_name := compiler;
     which := tools;
     spack_cc := "/spack/env/gcc/gcc" |}.

Definition gpu_variants (arch : string) : Variants :=
  {| shared := false; cuda := true; cuda_arch := [arch] |}.

(** * Vocabulary of the statements *)

(** A file of the wanted kind: one of the library names, with the suffix of
    shared or of static libraries. *)
Definition artifact (shared : bool) (libraries : list string) (f : found)
  : Prop :=
  ∃ lib, lib ∈ libraries ∧ last f = Some (lib +:+ "." +:+ library_suffix shared).

(** The requests of a run of the preparer, by the part of it that makes
    them. *)
Definition optflags (self : Libxc) : string :=
  if (compiler_name self =? "intel")%string
  then "-O2 -xSSE4.2 -axAVX,CORE-AVX2 -ipo"
  else "-O2".

Definition intel_requests (self : Libxc) : list modification :=
  if (compiler_name self =? "intel")%string then
    if which self "xiar" is Some _ then [SetEnv "AR" "xiar"] else []
  else [].

Definition nvcc_requests (self : Libxc) : list modification :=
  let nvcc := prefix_bin_nvcc (cuda_dep_prefix (spec self)) in
  [SetEnv "CCLD" (nvcc +:+ " -ccbin " +:+ spack_cc self);
   SetEnv "CC" (nvcc +:+ " -x cu -ccbin " +:+ spack_cc self)].

Definition arch_requests (target : string) : list modification :=
  if (target =? "none")%string then []
  else [AppendFlagsEnv "CFLAGS" ("-arch=sm_" +:+ target) " "].

Definition general_requests (self : Libxc) : list modification :=
  intel_requests self
  ++ [AppendFlagsEnv "CFLAGS" (optflags self) " ";
      AppendFlagsEnv "FCFLAGS" (optflags self) " "].

Definition first_arch (self : Libxc) : string :=
  default "none" (head (cuda_arch (variants (spec self)))).

Definition accelerated_requests (self : Libxc) : list modification :=
  if cuda (variants (spec self))
  then nvcc_requests self ++ arch_requests (first_arch self)
  else [].

Definition completion (self : Libxc) : exn + unit :=
  if cuda (variants (spec self)) then
    if cuda_arch (variants (spec self)) is [] then inl IndexError else inr tt
  else inr tt.

(** An architecture flag for the accelerator's compiler, appended to the
    C flags. *)
Definition arch_flag (m : modification) : bool :=
  match m with
  | AppendFlagsEnv name value _ =>
      (name =? "CFLAGS")%string && String.prefix "-arch=sm_" value
  | SetEnv _ _ => false
  end.

Definition modified (m : modification) : string :=
  match m with
  | SetEnv name _ => name
  | AppendFlagsEnv name _ _ => name
  end.

(** * Patch rules *)

(** The conditions of the recipe's [patch(...)] directives: ['@5.0.0'],
    ['%nvhpc'], ['@develop %nvhpc']. *)
Inductive condition :=
| AtVersion (v : ver)              (* @v *)
| WithCompiler (name : string).    (* %name *)

Record patch := {
  patch_file : string;
  patch_when : list condition
}.

(** The [patch(...)] directives, in the order of the recipe. *)
Definition patches : list patch :=
  [ {| patch_file :=
         "0001-Bugfix-avoid-implicit-pointer-cast-to-make-libxc-com.patch";
       patch_when := [AtVersion (Version "5.0.0")] |};
    {| patch_file := "0002-Mark-xc_erfcx-a-GPU_FUNCTION.patch";
       patch_when := [AtVersion (Version "5.0.0")] |};
    {| patch_file := "nvhpc-configure.patch";
       patch_when := [WithCompiler "nvhpc"] |};
    {| patch_file := "nvhpc-libtool.patch";
       patch_when := [AtVersion (Version "develop"); WithCompiler "nvhpc"] |} ].

Definition meets (self : Libxc) (c : condition) : bool :=
  match c with
  | AtVersion v => is_prefix v (self_version self)
  | WithCompiler name => (compiler_name self =? name)%string
  end.

(** Modelled from the spec: the orchestrator's choice of the patches of a
    build; it is not part of the recipe.  The patches whose condition the
    build meets are applied, in the order of their declaration. *)
Definition applicable_patches (self : Libxc) : list string :=
  patch_file <$> filter (λ p, forallb (meets self) (patch_when p) = true) patches.

(** * Variations of a build instance *)

(** The same package, asked with other query parameters. *)
Definition with_query (self : Libxc) (query : list string) : Libxc :=
  {| spec := {| version := version (spec self);
                variants := variants (spec self);
                last_query := {| extra_parameters := query |};
                cuda_dep_prefix := cuda_dep_prefix (spec self) |};
     prefix := prefix self;
     compiler_name := compiler_name self;
     which := which self;
     spack_cc := spack_cc self |}.

(** The same package, with other values of [cuda_arch]. *)
Definition with_cuda_arch (self : Libxc) (archs : list string) : Libxc :=
  {| spec := {| version := version (spec self);
                variants := {| shared := shared (variants (spec self));
                               cuda := cuda (variants (spec self));
                               cuda_arch := archs |};
                last_query := last_query (spec self);
                cuda_dep_prefix := cuda_dep_prefix (spec self) |};
     prefix := prefix self;
     compiler_name := compiler_name self;
     which := which self;
     spack_cc := spack_cc self |}.

(** * Versions *)

Example Version_4_0_0 : Version "4.0.0" = [Num 4; Num 0; Num 0].
Proof. reflexivity. Qed.

Example Version_mixed :
  Version "2.2-rc10" = [Num 2; Num 2; Alpha "rc"; Num 10].
Proof. reflexivity. Qed.

Example version_lt_3_4 : version_lt (Version "3.0.0") (Version "4.0.0") = true.
Proof. reflexivity. Qed.

Example version_lt_4_4 : version_lt (Version "4.0.0") (Version "4.0.0") = false.
Proof. reflexivity. Qed.

Example version_lt_develop :
  version_lt (Version "develop") (Version "4.0.0") = false.
Proof. reflexivity. Qed.

Example in_range_4_3_4 : in_range_upto (Version "4") (Version "4.3.4") = true.
Proof. reflexivity. Qed.

Example in_range_5_0_0 : in_range_upto (Version "4") (Version "5.0.0") = false.
Proof. reflexivity. Qed.

Lemma segment_eqb_eq a b : segment_eqb a b = true ↔ a = b.
Proof.
  destruct a as [x | x], b as [y | y]; simpl; try (split; [done | congruence]).
  - rewrite N.eqb_eq. split; congruence.
  - rewrite String.eqb_eq. split; congruence.
Qed.

Lemma version_lt_irrefl v : version_lt v v = false.
Proof.
  induction v as [| a v IH]; [done |]. simpl.
  by rewrite (proj2 (segment_eqb_eq a a) eq_refl).
Qed.

(** * The locator *)

Example libs_default :
  libs (instance "5.0.0" default_variants [] "gcc" no_tools)
  = inr [["/opt/libxc"; "lib"; "libxc.so"]].
Proof. reflexivity. Qed.

Example libs_static_fortran_3 :
  libs (instance "3.0.0" default_variants ["fortran"; "static"] "gcc" no_tools)
  = inr [["/opt/libxc"; "lib"; "libxcf90.a"]; ["/opt/libxc"; "lib"; "libxc.a"]].
Proof. reflexivity. Qed.

Example libs_fortran_5 :
  libs (instance "5.0.0" default_variants ["fortran"] "gcc" no_tools)
  = inr [["/opt/libxc"; "lib"; "libxcf90.so"];
         ["/opt/libxc"; "lib"; "libxcf03.so"];
         ["/opt/libxc"; "lib"; "libxc.so"]].
Proof. reflexivity. Qed.

Example libs_nothing_installed :
  libs {| spec := spec (instance "5.0.0" default_variants [] "gcc" no_tools);
          prefix := empty_prefix;
          compiler_name := "gcc";
          which := no_tools;
          spack_cc := "/spack/env/gcc/gcc" |}
  = inl NoLibrariesError.
Proof. reflexivity. Qed.

(** The property is the orchestrator's search, run on the request the
    locator builds. *)
Lemma libs_is_search self :
  libs self
  = find_libraries (search_libraries (libs_search self))
      (search_root (libs_search self)) (search_shared (libs_search self))
      (search_recursive (libs_search self)).
Proof. reflexivity. Qed.

Lemma libs_search_root self :
  search_root (libs_search self) = prefix self
  ∧ search_recursive (libs_search self) = true.
Proof. done. Qed.

Lemma find_entry_last name recursive :
  ∀ e dir f, In f (find_entry name dir recursive e) → last f = Some name.
Proof.
  assert (Hfile : ∀ n dir f,
             In f (find_entry name dir recursive (File n)) → last f = Some name).
  { intros n dir f. simpl.
    destruct (String.eqb_spec n name) as [-> | _]; [| done].
    intros [<- | []]. by rewrite last_snoc. }
  destruct recursive.
  - fix IH 1. intros [n | n es] dir f; [apply Hfile |]. simpl.
    induction es as [| e es IHes]; simpl; [done |].
    rewrite in_app_iff. intros [Hf | Hf]; [by eapply IH | by apply IHes].
  - intros [n | n es] dir f; [apply Hfile | done].
Qed.

Lemma find_last root names recursive f :
  In f (find root names recursive) → ∃ name, name ∈ names ∧ last f = Some name.
Proof.
  unfold find. rewrite in_flat_map. intros (name & Hname & Hf).
  apply in_flat_map in Hf as (e & _ & Hf).
  exists name. split; [by apply list_elem_of_In | by eapply find_entry_last].
Qed.

Lemma returned_find_libraries libraries root shared recursive :
  returned (find_libraries libraries root shared recursive)
  = find root (map (λ lib, lib +:+ "." +:+ library_suffix shared) libraries)
         recursive.
Proof. unfold find_libraries. by destruct (find _ _ _). Qed.

Lemma find_libraries_artifact libraries root shared recursive :
  Forall (artifact shared libraries)
         (returned (find_libraries libraries root shared recursive)).
Proof.
  rewrite returned_find_libraries.
  apply Forall_forall. intros f Hf%list_elem_of_In.
  apply find_last in Hf as (name & Hname & Hlast).
  apply list_elem_of_fmap in Hname as (lib & -> & Hlib).
  by exists lib.
Qed.

(** A recursive search by name finds the files of that name, all of them. *)
Lemma find_entry_files name :
  ∀ e dir f,
    In f (find_entry name dir true e)
    ↔ In f (files_in dir e) ∧ last f = Some name.
Proof.
  fix IH 1. intros [n | n es] dir f; simpl.
  - destruct (String.eqb_spec n name) as [-> | Hn]; simpl.
    + split.
      * intros [<- | []]. split; [by left | by rewrite last_snoc].
      * intros [[<- | []] _]. by left.
    + split; [done |]. intros [[<- | []] Hlast].
      rewrite last_snoc in Hlast. congruence.
  - induction es as [| e es IHes]; simpl.
    + split; [done | by intros [[] _]].
    + rewrite !in_app_iff. split.
      * intros [Hf | Hf].
        -- apply IH in Hf as [Hf Hlast]. by split; [left |].
        -- apply IHes in Hf as [Hf Hlast]. by split; [right |].
      * intros [[Hf | Hf] Hlast].
        -- left. by apply IH.
        -- right. by apply IHes.
Qed.

Lemma find_files root names f :
  In f (find root names true)
  ↔ In f (files_under root) ∧ ∃ name, name ∈ names ∧ last f = Some name.
Proof.
  unfold find, files_under. rewrite in_flat_map. split.
  - intros (name & Hname & Hf).
    apply in_flat_map in Hf as (e & He & Hf).
    apply find_entry_files in Hf as [Hf Hlast]. split.
    + apply in_flat_map. by exists e.
    + exists name. split; [by apply list_elem_of_In | done].
  - intros [Hf (name & Hname & Hlast)].
    apply in_flat_map in Hf as (e & He & Hf).
    exists name. split; [by apply list_elem_of_In |].
    apply in_flat_map. exists e. split; [done |].
    by apply find_entry_files.
Qed.

(** What a recursive library search returns: the files under the prefix
    that are of the wanted kind, all of them and no other. *)
Lemma find_libraries_returned libraries root shared f :
  f ∈ returned (find_libraries libraries root shared true)
  ↔ f ∈ files_under root ∧ artifact shared libraries f.
Proof.
  rewrite returned_find_libraries, !list_elem_of_In, find_files.
  unfold artifact. split.
  - intros [Hf (name & Hname & Hlast)]. split; [done |].
    apply list_elem_of_fmap in Hname as (lib & -> & Hlib). by exists lib.
  - intros [Hf (lib & Hlib & Hlast)]. split; [done |].
    eexists. split; [| exact Hlast].
    apply list_elem_of_fmap. by exists lib.
Qed.

(** The search fails exactly when no file under the prefix is of the wanted
    kind, and then it returns no file. *)
Lemma find_libraries_not_found libraries root shared :
  find_libraries libraries root shared true = inl NoLibrariesError
  ↔ ∀ f, f ∈ files_under root → ¬ artifact shared libraries f.
Proof.
  split.
  - intros Herror f Hf Hartifact.
    assert (Hin : f ∈ returned (find_libraries libraries root shared true))
      by by apply find_libraries_returned.
    rewrite Herror in Hin. by apply elem_of_nil in Hin.
  - intros Hnone.
    destruct (find_libraries libraries root shared true)
      as [[] | files] eqn:Hfound; [done |].
    assert (Hfiles : files ≠ []).
    { unfold find_libraries in Hfound.
      destruct (find _ _ _); [done | by injection Hfound as <-]. }
    destruct files as [| f files]; [done |].
    assert (Hin : f ∈ returned (find_libraries libraries root shared true))
      by (rewrite Hfound; apply list_elem_of_here).
    apply find_libraries_returned in Hin as [Hf Hartifact].
    by destruct (Hnone f Hf).
Qed.

Lemma libs_search_shared self :
  search_shared (libs_search self)
  = shared (variants (spec self))
    && negb (bool_decide
               ("static" ∈ extra_parameters (last_query (spec self)))).
Proof. reflexivity. Qed.

(** C1: for every build instance and every set of query parameters, the
    locator searches for shared libraries if and only if the [shared]
    variant is selected and "static" is not among the query parameters, and
    what it returns is the result of that search under its prefix.  With
    the default variants and no "static" request it returns the shared
    libraries of the requested names that lie under the prefix, all of
    them and nothing else; as soon as "static" is among the query
    parameters it returns the static ones, whatever the [shared] variant
    says.  In either case it fails, as the search does, exactly when no
    such file lies under the prefix. *)
Theorem libs_shared_iff_variant_and_not_static (self : Libxc) :
  let query_parameters := extra_parameters (last_query (spec self)) in
  let requested := search_libraries (libs_search self) in
  (search_shared (libs_search self) = true
   ↔ shared (variants (spec self)) = true ∧ "static" ∉ query_parameters)
  ∧ libs self
    = find_libraries requested (prefix self)
        (search_shared (libs_search self)) true
  ∧ (variants (spec self) = default_variants → "static" ∉ query_parameters →
     search_shared (libs_search self) = true
     ∧ (∀ f, f ∈ returned (libs self)
             ↔ f ∈ files_under (prefix self) ∧ artifact true requested f)
     ∧ (libs self = inl NoLibrariesError
        ↔ ∀ f, f ∈ files_under (prefix self) → ¬ artifact true requested f))
  ∧ ("static" ∈ query_parameters →
     search_shared (libs_search self) = false
     ∧ (∀ f, f ∈ returned (libs self)
             ↔ f ∈ files_under (prefix self) ∧ artifact false requested f)
     ∧ (libs self = inl NoLibrariesError
        ↔ ∀ f, f ∈ files_under (prefix self) → ¬ artifact false requested f)).
Proof.
  intros q requested.
  assert (Hlibs : libs self
                  = find_libraries requested (prefix self)
                      (search_shared (libs_search self)) true)
    by apply libs_is_search.
  rewrite Hlibs, libs_search_shared. fold q.
  split; [| split; [done | split]].
  - rewrite andb_true_iff, negb_true_iff, bool_decide_eq_false. done.
  - intros -> Hq. simpl. rewrite bool_decide_eq_false_2 by done. simpl.
    split; [done |]. split.
    + intros f. apply find_libraries_returned.
    + apply find_libraries_not_found.
  - intros Hq. rewrite bool_decide_eq_true_2 by done.
    rewrite andb_false_r. split; [done |]. split.
    + intros f. apply find_libraries_returned.
    + apply find_libraries_not_found.
Qed.

Lemma libs_shared_iff_variant_and_not_static_witness :
  let by_default := instance "5.0.0" default_variants ["fortran"] "gcc"
                      no_tools in
  let static := instance "5.0.0" default_variants ["fortran"; "static"] "gcc"
                  no_tools in
  (search_shared (libs_search by_default) = true
   ∧ ["/opt/libxc"; "lib"; "libxcf03.so"] ∈ returned (libs by_default))
  ∧ (search_shared (libs_search static) = false
     ∧ ["/opt/libxc"; "lib"; "libxcf03.a"] ∈ returned (libs static)).
Proof.
  intros by_default static. split.
  - destruct (proj1 (proj2 (proj2
                (libs_shared_iff_variant_and_not_static by_default))))
      as (Hshared & Hreturned & _); [reflexivity | |].
    + apply (bool_decide_unpack _). vm_compute. exact I.
    + split; [exact Hshared |]. apply Hreturned. split.
      * apply (bool_decide_unpack _). vm_compute. exact I.
      * exists "libxcf03". split; [| reflexivity].
        apply (bool_decide_unpack _). vm_compute. exact I.
  - destruct (proj2 (proj2 (proj2
                (libs_shared_iff_variant_and_not_static static))))
      as (Hshared & Hreturned & _).
    + apply (bool_decide_unpack _). vm_compute. exact I.
    + split; [exact Hshared |]. apply Hreturned. split.
      * apply (bool_decide_unpack _). vm_compute. exact I.
      * exists "libxcf03". split; [| reflexivity].
        apply (bool_decide_unpack _). vm_compute. exact I.
Defined.

(** C2: when "fortran" is among the query parameters, the names searched
    for are the base name preceded by exactly one binding name, libxcf90,
    for a version strictly below 4.0.0, and by exactly two, libxcf90 and
    libxcf03, for a version at or above it. *)
Theorem libs_fortran_bindings (self : Libxc) :
  "fortran" ∈ extra_parameters (last_query (spec self)) →
  search_libraries (libs_search self)
  = if version_lt (self_version self) (Version "4.0.0")
    then ["libxcf90"; "libxc"]
    else ["libxcf90"; "libxcf03"; "libxc"].
Proof.
  intros Hq. unfold libs_search, libs_with. simpl.
  rewrite bool_decide_eq_true_2 by done.
  by destruct (version_lt _ _).
Qed.

Lemma libs_fortran_bindings_witness :
  search_libraries
    (libs_search (instance "3.0.0" default_variants ["fortran"] "gcc" no_tools))
  = ["libxcf90"; "libxc"]
  ∧ search_libraries
      (libs_search (instance "4.3.4" default_variants ["static"; "fortran"]
                      "gcc" no_tools))
    = ["libxcf90"; "libxcf03"; "libxc"].
Proof.
  split.
  - apply (libs_fortran_bindings
             (instance "3.0.0" default_variants ["fortran"] "gcc" no_tools)).
    apply (bool_decide_unpack _). vm_compute. exact I.
  - apply (libs_fortran_bindings
             (instance "4.3.4" default_variants ["static"; "fortran"] "gcc"
                no_tools)).
    apply (bool_decide_unpack _). vm_compute. exact I.
Defined.

(** C10: whatever the query parameters, the list of names passed to the
    search contains the base name libxc, and libxc is its last element:
    binding names only ever come before it. *)
Theorem libs_base_name_last (self : Libxc) :
  "libxc" ∈ search_libraries (libs_search self)
  ∧ last (search_libraries (libs_search self)) = Some "libxc"
  ∧ ∃ bindings,
      search_libraries (libs_search self) = bindings ++ ["libxc"]
      ∧ "libxc" ∉ bindings.
Proof.
  unfold libs_search, libs_with. simpl.
  destruct (bool_decide _); [destruct (version_lt _ _) |]; simpl.
  - split; [set_solver |]. split; [done |].
    exists ["libxcf90"]. split; [done |]. by apply (bool_decide_unpack _).
  - split; [set_solver |]. split; [done |].
    exists ["libxcf90"; "libxcf03"]. split; [done |].
    by apply (bool_decide_unpack _).
  - split; [set_solver |]. split; [done |].
    exists []. split; [done |]. set_solver.
Qed.

(** * The configure arguments *)

Example configure_args_default :
  configure_args (instance "5.0.0" default_variants [] "gcc" no_tools)
  = ["--enable-shared"; "--disable-cuda"].
Proof. reflexivity. Qed.

Example configure_args_gpu :
  configure_args (instance "5.0.0" (gpu_variants "70") [] "gcc" no_tools)
  = ["--disable-shared"; "--enable-cuda"].
Proof. reflexivity. Qed.

(** C5: for every selection of variants, [configure_args] returns exactly
    two flags, in this order: --enable-shared when the [shared] variant is
    selected and --disable-shared otherwise, then --enable-cuda when the
    [cuda] variant is selected and --disable-cuda otherwise. *)
Theorem configure_args_two_flags (self : Libxc) :
  configure_args self
  = [ if shared (variants (spec self))
      then "--enable-shared" else "--disable-shared";
      if cuda (variants (spec self))
      then "--enable-cuda" else "--disable-cuda" ].
Proof.
  unfold configure_args, satisfies. simpl. unfold variant_flag. simpl.
  by destruct (shared _), (cuda _).
Qed.

(** * The environment preparer *)

Example setup_build_environment_gcc :
  setup_build_environment
    (instance "5.0.0" default_variants [] "gcc" no_tools) []
  = (inr tt,
     [AppendFlagsEnv "CFLAGS" "-O2" " "; AppendFlagsEnv "FCFLAGS" "-O2" " "]).
Proof. reflexivity. Qed.

Example setup_build_environment_intel_gpu :
  setup_build_environment
    (instance "5.0.0" (gpu_variants "70") [] "intel" intel_tools) []
  = (inr tt,
     [SetEnv "AR" "xiar";
      AppendFlagsEnv "CFLAGS" "-O2 -xSSE4.2 -axAVX,CORE-AVX2 -ipo" " ";
      AppendFlagsEnv "FCFLAGS" "-O2 -xSSE4.2 -axAVX,CORE-AVX2 -ipo" " ";
      SetEnv "CCLD" "/opt/cuda/bin/nvcc -ccbin /spack/env/gcc/gcc";
      SetEnv "CC" "/opt/cuda/bin/nvcc -x cu -ccbin /spack/env/gcc/gcc";
      AppendFlagsEnv "CFLAGS" "-arch=sm_70" " "]).
Proof. reflexivity. Qed.

Example setup_build_environment_no_arch_value :
  setup_build_environment
    (instance "5.0.0" {| shared := false; cuda := true; cuda_arch := [] |} []
       "gcc" no_tools) []
  = (inl IndexError,
     [AppendFlagsEnv "CFLAGS" "-O2" " "; AppendFlagsEnv "FCFLAGS" "-O2" " ";
      SetEnv "CCLD" "/opt/cuda/bin/nvcc -ccbin /spack/env/gcc/gcc";
      SetEnv "CC" "/opt/cuda/bin/nvcc -x cu -ccbin /spack/env/gcc/gcc"]).
Proof. reflexivity. Qed.

Lemma satisfies_cuda s : satisfies s [VariantOn "cuda"] = cuda (variants s).
Proof. unfold satisfies. simpl. apply andb_true_r. Qed.

Lemma satisfies_shared s : satisfies s [VariantOn "shared"] = shared (variants s).
Proof. unfold satisfies. simpl. apply andb_true_r. Qed.

(** The requests of a run, in order: the general ones, then the ones made
    for an accelerated build. *)
Lemma setup_build_environment_unfold self env :
  setup_build_environment self env
  = (completion self,
     env ++ general_requests self ++ accelerated_requests self).
Proof.
  unfold setup_build_environment, completion, general_requests,
    accelerated_requests, first_arch, intel_requests, optflags, nvcc_requests,
    arch_requests.
  rewrite satisfies_cuda.
  unfold mbind, Build_bind, mret, Build_ret, env_set, env_append_flags,
    getitem, raise.
  destruct (compiler_name self =? "intel")%string;
    [destruct (which self "xiar") |];
    (destruct (cuda (variants (spec self)));
      [destruct (cuda_arch (variants (spec self))) as [| target rest] |]);
    simpl; try destruct (target =? "none")%string;
    simpl; rewrite <- ?app_assoc; simpl; rewrite ?app_nil_r; reflexivity.
Qed.

Lemma append_empty_r s : s +:+ "" = s.
Proof.
  induction s as [| c s IH]; [done |]. exact (f_equal (String c) IH).
Qed.

Lemma appended_nonempty old value sep : value ≠ "" → appended old value sep ≠ "".
Proof.
  intros Hvalue. destruct old as [[| c old] |]; simpl; done.
Qed.

Lemma appended_to_nonempty old value sep :
  old ≠ "" → appended (Some old) value sep = old +:+ sep +:+ value.
Proof. by destruct old. Qed.

Lemma optflags_baseline self :
  optflags self
  = "-O2" +:+ (if (compiler_name self =? "intel")%string
               then " -xSSE4.2 -axAVX,CORE-AVX2 -ipo" else "").
Proof. unfold optflags. by destruct (_ =? _)%string. Qed.

Lemma optflags_nonempty self : optflags self ≠ "".
Proof. unfold optflags. by destruct (_ =? _)%string. Qed.

Lemma apply_modifications_app env1 env2 environ :
  apply_modifications (env1 ++ env2) environ
  = apply_modifications env2 (apply_modifications env1 environ).
Proof. apply foldl_app. Qed.

(** A variable no request names keeps its value. *)
Lemma apply_modifications_other env environ name :
  Forall (λ m, modified m ≠ name) env →
  apply_modifications env environ !! name = environ !! name.
Proof.
  revert environ. induction env as [| m env IH]; intros environ Hnames; [done |].
  apply Forall_cons in Hnames as [Hm Henv].
  change (apply_modifications env (execute m environ) !! name = environ !! name).
  rewrite IH by done.
  destruct m; simpl in *; by rewrite lookup_insert_ne.
Qed.

Ltac lookup_environ :=
  unfold apply_modifications; simpl;
  repeat (rewrite lookup_insert_eq || rewrite lookup_insert_ne by done).

(** The variables after the general requests. *)
Lemma general_requests_environ self environ :
  let after := apply_modifications (general_requests self) environ in
  after !! "CFLAGS" = Some (appended (environ !! "CFLAGS") (optflags self) " ")
  ∧ after !! "FCFLAGS"
    = Some (appended (environ !! "FCFLAGS") (optflags self) " ")
  ∧ after !! "AR"
    = (if intel_requests self is [] then environ !! "AR" else Some "xiar")
  ∧ after !! "CC" = environ !! "CC"
  ∧ after !! "CCLD" = environ !! "CCLD".
Proof.
  unfold general_requests, intel_requests.
  destruct (compiler_name self =? "intel")%string;
    [destruct (which self "xiar") |]; by lookup_environ.
Qed.

(** The variables after the requests of an accelerated build. *)
Lemma nvcc_requests_environ self target environ :
  let after :=
    apply_modifications (nvcc_requests self ++ arch_requests target) environ in
  after !! "CCLD"
  = Some (prefix_bin_nvcc (cuda_dep_prefix (spec self))
          +:+ " -ccbin " +:+ spack_cc self)
  ∧ after !! "CC"
    = Some (prefix_bin_nvcc (cuda_dep_prefix (spec self))
            +:+ " -x cu -ccbin " +:+ spack_cc self)
  ∧ after !! "CFLAGS"
    = (if (target =? "none")%string then environ !! "CFLAGS"
       else Some (appended (environ !! "CFLAGS") ("-arch=sm_" +:+ target) " "))
  ∧ after !! "FCFLAGS" = environ !! "FCFLAGS"
  ∧ after !! "AR" = environ !! "AR".
Proof.
  unfold nvcc_requests, arch_requests.
  destruct (target =? "none")%string; by lookup_environ.
Qed.

(** The variables a run may touch. *)
Lemma requests_names self :
  Forall (λ m, modified m ∈ ["AR"; "CFLAGS"; "FCFLAGS"; "CCLD"; "CC"])
         (general_requests self ++ accelerated_requests self).
Proof.
  unfold general_requests, accelerated_requests, intel_requests, nvcc_requests,
    arch_requests.
  destruct (compiler_name self =? "intel")%string;
    [destruct (which self "xiar") |];
    destruct (cuda (variants (spec self)));
    try destruct (first_arch self =? "none")%string;
    simpl; repeat constructor; simpl; set_solver.
Qed.

(** C7: for every build instance, [setup_build_environment] appends the
    baseline flag -O2 to both CFLAGS and FCFLAGS; for the intel compiler
    the flags appended to both are -O2 followed by the vendor's
    vectorization flags, and AR is set to xiar when that tool is found.
    The function returns no value: it returns (), for every instance whose
    [cuda_arch] has a value, and all it does is add its requests to the
    environment object, after the ones already there; no variable besides
    AR, CFLAGS, FCFLAGS, CC and CCLD changes. *)
Theorem optimization_flags_appended
    (self : Libxc) (env : EnvironmentModifications) :
  let intel := (compiler_name self =? "intel")%string in
  let flags :=
    "-O2" +:+ (if intel then " -xSSE4.2 -axAVX,CORE-AVX2 -ipo" else "") in
  let xiar := if intel then which self "xiar" else None in
  let run := setup_build_environment self env in
  (∃ accelerated,
     run.2 = env
             ++ (if xiar is Some _ then [SetEnv "AR" "xiar"] else [])
             ++ [AppendFlagsEnv "CFLAGS" flags " ";
                 AppendFlagsEnv "FCFLAGS" flags " "]
             ++ accelerated
     ∧ Forall (λ m, modified m ∈ ["CCLD"; "CC"; "CFLAGS"]) accelerated
     ∧ (cuda (variants (spec self)) = false → accelerated = []))
  ∧ (cuda (variants (spec self)) = false
     ∨ cuda_arch (variants (spec self)) ≠ [] → run.1 = inr tt)
  ∧ ∀ environ : gmap string string,
      let before := apply_modifications env environ in
      let after := apply_modifications run.2 environ in
      after !! "FCFLAGS" = Some (appended (before !! "FCFLAGS") flags " ")
      ∧ (∃ arch, after !! "CFLAGS"
                 = Some (appended (before !! "CFLAGS") flags " " +:+ arch))
      ∧ after !! "AR" = (if xiar is Some _ then Some "xiar" else before !! "AR")
      ∧ ∀ name, name ∉ ["AR"; "CFLAGS"; "FCFLAGS"; "CCLD"; "CC"] →
                after !! name = before !! name.
Proof.
  intros intel flags xiar run.
  assert (Hflags : optflags self = flags) by apply optflags_baseline.
  assert (Hxiar : intel_requests self
                  = if xiar is Some _ then [SetEnv "AR" "xiar"] else []).
  { unfold intel_requests, xiar, intel.
    by destruct (compiler_name self =? "intel")%string. }
  subst run. rewrite setup_build_environment_unfold. simpl.
  split; [| split].
  - exists (accelerated_requests self). split; [| split].
    + unfold general_requests. by rewrite Hflags, Hxiar, <- app_assoc.
    + unfold accelerated_requests, nvcc_requests, arch_requests.
      destruct (cuda (variants (spec self))); [| done].
      destruct (first_arch self =? "none")%string;
        simpl; repeat constructor; simpl; set_solver.
    + intros Hcuda. unfold accelerated_requests. by rewrite Hcuda.
  - unfold completion.
    destruct (cuda (variants (spec self))); [| done].
    destruct (cuda_arch (variants (spec self))); [| done].
    by intros [? | ?].
  - intros environ. rewrite apply_modifications_app.
    set (before := apply_modifications env environ). repeat split.
    + rewrite apply_modifications_app.
      destruct (general_requests_environ self before) as (_ & HF & _).
      rewrite <- Hflags, <- HF. unfold accelerated_requests.
      destruct (cuda (variants (spec self))); [| done].
      apply nvcc_requests_environ.
    + rewrite apply_modifications_app.
      destruct (general_requests_environ self before) as (HC & _).
      rewrite <- Hflags. unfold accelerated_requests.
      destruct (cuda (variants (spec self)));
        [| exists ""; by rewrite append_empty_r].
      destruct (nvcc_requests_environ self (first_arch self)
                  (apply_modifications (general_requests self) before))
        as (_ & _ & -> & _).
      rewrite HC.
      destruct (first_arch self =? "none")%string;
        [exists ""; by rewrite append_empty_r |].
      exists (" -arch=sm_" +:+ first_arch self).
      by rewrite appended_to_nonempty
        by apply appended_nonempty, optflags_nonempty.
    + rewrite apply_modifications_app.
      destruct (general_requests_environ self before) as (_ & _ & HA & _).
      rewrite Hxiar in HA.
      transitivity (apply_modifications (general_requests self) before !! "AR").
      * unfold accelerated_requests.
        destruct (cuda (variants (spec self))); [| done].
        apply nvcc_requests_environ.
      * rewrite HA. by destruct xiar.
    + intros name Hname. apply apply_modifications_other.
      eapply Forall_impl; [apply requests_names |].
      intros m Hm Heq. apply Hname. by rewrite <- Heq.
Qed.

Lemma optimization_flags_appended_witness :
  let self := instance "4.3.4" default_variants [] "intel" intel_tools in
  let environ : gmap string string := <["FCFLAGS" := "-g"]> ∅ in
  let after := apply_modifications (setup_build_environment self []).2 environ in
  after !! "FCFLAGS" = Some "-g -O2 -xSSE4.2 -axAVX,CORE-AVX2 -ipo"
  ∧ after !! "AR" = Some "xiar"
  ∧ after !! "PATH" = None.
Proof.
  intros self environ after.
  destruct (proj2 (proj2 (optimization_flags_appended self [])) environ)
    as (HFCFLAGS & _ & HAR & Hother).
  split; [exact HFCFLAGS |]. split; [exact HAR |].
  apply (Hother "PATH"). apply (bool_decide_unpack _). vm_compute. exact I.
Defined.

Lemma general_requests_no_arch_flag self :
  existsb arch_flag (general_requests self) = false.
Proof.
  unfold general_requests, intel_requests, optflags.
  destruct (compiler_name self =? "intel")%string;
    [destruct (which self "xiar") |]; reflexivity.
Qed.

Lemma accelerated_requests_cuda self :
  cuda (variants (spec self)) = true →
  accelerated_requests self
  = [SetEnv "CCLD" (prefix_bin_nvcc (cuda_dep_prefix (spec self))
                    +:+ " -ccbin " +:+ spack_cc self);
     SetEnv "CC" (prefix_bin_nvcc (cuda_dep_prefix (spec self))
                  +:+ " -x cu -ccbin " +:+ spack_cc self)]
    ++ arch_requests (first_arch self).
Proof. intros Hcuda. unfold accelerated_requests. by rewrite Hcuda. Qed.

(** C6, as the code has it: for every build instance with the cuda option
    selected, [setup_build_environment] sets CCLD and CC to commands that
    go through the toolkit's nvcc, with -ccbin pointing at the build
    compiler; and when the first selected [cuda_arch] value is a target
    other than none, it then appends -arch=sm_<target> to CFLAGS and
    returns. *)
Theorem cuda_routes_through_nvcc
    (self : Libxc) (env : EnvironmentModifications) :
  cuda (variants (spec self)) = true →
  let nvcc := path_join (path_join (cuda_dep_prefix (spec self)) "bin") "nvcc" in
  let ccld := nvcc +:+ " -ccbin " +:+ spack_cc self in
  let cc := nvcc +:+ " -x cu -ccbin " +:+ spack_cc self in
  let run := setup_build_environment self env in
  (∃ general arch,
     run.2 = env ++ general ++ [SetEnv "CCLD" ccld; SetEnv "CC" cc] ++ arch
     ∧ ∀ target others,
         cuda_arch (variants (spec self)) = target :: others →
         target ≠ "none" →
         arch = [AppendFlagsEnv "CFLAGS" ("-arch=sm_" +:+ target) " "]
         ∧ run.1 = inr tt)
  ∧ ∀ environ : gmap string string,
      let after := apply_modifications run.2 environ in
      after !! "CCLD" = Some ccld
      ∧ after !! "CC" = Some cc
      ∧ ∀ target others,
          cuda_arch (variants (spec self)) = target :: others →
          target ≠ "none" →
          ∃ flags, after !! "CFLAGS" = Some (flags +:+ " -arch=sm_" +:+ target).
Proof.
  intros Hcuda nvcc ccld cc run. subst run.
  rewrite setup_build_environment_unfold. simpl.
  rewrite (accelerated_requests_cuda self Hcuda).
  fold nvcc_requests. split.
  - exists (general_requests self), (arch_requests (first_arch self)).
    split; [done |]. intros target others Harch Htarget.
    unfold first_arch, completion, arch_requests. rewrite Hcuda, Harch. simpl.
    apply String.eqb_neq in Htarget. by rewrite Htarget.
  - intros environ. rewrite !apply_modifications_app.
    set (mid := apply_modifications (general_requests self)
                  (apply_modifications env environ)).
    rewrite <- apply_modifications_app.
    destruct (nvcc_requests_environ self (first_arch self) mid)
      as (HCCLD & HCC & HCFLAGS & _).
    split; [exact HCCLD |]. split; [exact HCC |].
    intros target others Harch Htarget.
    assert (Hfirst : first_arch self = target)
      by (unfold first_arch; by rewrite Harch).
    rewrite Hfirst in HCFLAGS.
    apply String.eqb_neq in Htarget. rewrite Htarget in HCFLAGS.
    destruct (general_requests_environ self (apply_modifications env environ))
      as (HC & _).
    fold mid in HC. rewrite HC in HCFLAGS.
    rewrite appended_to_nonempty in HCFLAGS
      by apply appended_nonempty, optflags_nonempty.
    eexists. rewrite Hfirst. exact HCFLAGS.
Qed.

Lemma cuda_routes_through_nvcc_witness :
  let self := instance "5.0.0" (gpu_variants "70") [] "gcc" no_tools in
  (setup_build_environment self []).1 = inr tt
  ∧ ∀ environ : gmap string string,
      let after :=
        apply_modifications (setup_build_environment self []).2 environ in
      after !! "CCLD" = Some "/opt/cuda/bin/nvcc -ccbin /spack/env/gcc/gcc"
      ∧ after !! "CC" = Some "/opt/cuda/bin/nvcc -x cu -ccbin /spack/env/gcc/gcc"
      ∧ ∃ flags, after !! "CFLAGS" = Some (flags +:+ " -arch=sm_70").
Proof.
  intros self.
  pose proof (cuda_routes_through_nvcc self [] eq_refl) as [Hrun Henv].
  split.
  - destruct Hrun as (general & arch & _ & Harch).
    apply (Harch "70" []); [reflexivity | discriminate].
  - intros environ. destruct (Henv environ) as (HCCLD & HCC & HCFLAGS).
    split; [exact HCCLD |]. split; [exact HCC |].
    apply (HCFLAGS "70" []); [reflexivity | discriminate].
Defined.

(** With the target none, the default of the variant, no architecture flag
    is requested: the claim that every accelerated build gets one fails
    there. *)
Lemma cuda_always_arch_flag_counterexample :
  (let self := instance "5.0.0" (gpu_variants "none") [] "gcc" no_tools in
   cuda (variants (spec self)) = true
   ∧ setup_build_environment self []
     = (inr tt,
        [AppendFlagsEnv "CFLAGS" "-O2" " "; AppendFlagsEnv "FCFLAGS" "-O2" " ";
         SetEnv "CCLD" "/opt/cuda/bin/nvcc -ccbin /spack/env/gcc/gcc";
         SetEnv "CC" "/opt/cuda/bin/nvcc -x cu -ccbin /spack/env/gcc/gcc"])
   ∧ existsb arch_flag (setup_build_environment self []).2 = false
   ∧ apply_modifications (setup_build_environment self []).2 ∅ !! "CFLAGS"
     = Some "-O2")
  ∧ ¬ (∀ (self : Libxc) (env : EnvironmentModifications),
         cuda (variants (spec self)) = true →
         existsb arch_flag (setup_build_environment self env).2 = true).
Proof.
  split.
  - repeat split; vm_compute; reflexivity.
  - intros Hclaim.
    specialize (Hclaim
                  (instance "5.0.0" (gpu_variants "none") [] "gcc" no_tools)
                  [] eq_refl).
    vm_compute in Hclaim. discriminate.
Qed.

(** C9: for every build instance with the cuda option selected whose
    selected [cuda_arch] target is none, [setup_build_environment] requests
    no -arch=sm_ flag: CFLAGS gets the optimization flags and nothing
    else, while CCLD and CC are still set to the nvcc commands. *)
Theorem cuda_arch_none_no_arch_flag
    (self : Libxc) (env : EnvironmentModifications) (others : list string) :
  cuda (variants (spec self)) = true →
  cuda_arch (variants (spec self)) = "none" :: others →
  let nvcc := path_join (path_join (cuda_dep_prefix (spec self)) "bin") "nvcc" in
  let ccld := nvcc +:+ " -ccbin " +:+ spack_cc self in
  let cc := nvcc +:+ " -x cu -ccbin " +:+ spack_cc self in
  let flags :=
    "-O2" +:+ (if (compiler_name self =? "intel")%string
               then " -xSSE4.2 -axAVX,CORE-AVX2 -ipo" else "") in
  let run := setup_build_environment self env in
  run.1 = inr tt
  ∧ (∃ requests,
       run.2 = env ++ requests ++ [SetEnv "CCLD" ccld; SetEnv "CC" cc]
       ∧ existsb arch_flag
           (requests ++ [SetEnv "CCLD" ccld; SetEnv "CC" cc]) = false)
  ∧ ∀ environ : gmap string string,
      let before := apply_modifications env environ in
      let after := apply_modifications run.2 environ in
      after !! "CFLAGS" = Some (appended (before !! "CFLAGS") flags " ")
      ∧ after !! "CCLD" = Some ccld
      ∧ after !! "CC" = Some cc.
Proof.
  intros Hcuda Harch nvcc ccld cc flags run. subst run.
  assert (Hfirst : first_arch self = "none")
    by (unfold first_arch; by rewrite Harch).
  rewrite setup_build_environment_unfold. simpl.
  rewrite (accelerated_requests_cuda self Hcuda).
  split; [| split].
  - unfold completion. by rewrite Hcuda, Harch.
  - exists (general_requests self). rewrite Hfirst. split; [done |].
    rewrite existsb_app, general_requests_no_arch_flag. reflexivity.
  - intros environ. rewrite !apply_modifications_app.
    set (before := apply_modifications env environ).
    rewrite <- apply_modifications_app. fold (nvcc_requests self).
    destruct (nvcc_requests_environ self (first_arch self)
                (apply_modifications (general_requests self) before))
      as (HCCLD & HCC & HCFLAGS & _).
    split; [| split; [exact HCCLD | exact HCC]].
    rewrite HCFLAGS, Hfirst. simpl.
    destruct (general_requests_environ self before) as (-> & _).
    by rewrite optflags_baseline.
Qed.

Lemma cuda_arch_none_no_arch_flag_witness :
  let self := instance "5.0.0" (gpu_variants "none") [] "intel" no_tools in
  (setup_build_environment self []).1 = inr tt
  ∧ ∀ environ : gmap string string,
      let after :=
        apply_modifications (setup_build_environment self []).2 environ in
      after !! "CFLAGS"
      = Some (appended (environ !! "CFLAGS")
                "-O2 -xSSE4.2 -axAVX,CORE-AVX2 -ipo" " ")
      ∧ after !! "CCLD" = Some "/opt/cuda/bin/nvcc -ccbin /spack/env/gcc/gcc"
      ∧ after !! "CC" = Some "/opt/cuda/bin/nvcc -x cu -ccbin /spack/env/gcc/gcc".
Proof.
  intros self.
  pose proof (cuda_arch_none_no_arch_flag self [] [] eq_refl eq_refl)
    as (Hrun & _ & Henv).
  split; [exact Hrun | exact Henv].
Defined.

(** * Conflict validation *)

Example build_default :
  build (instance "5.0.0" default_variants [] "gcc" no_tools)
  = Configured
      [AppendFlagsEnv "CFLAGS" "-O2" " "; AppendFlagsEnv "FCFLAGS" "-O2" " "]
      ["--enable-shared"; "--disable-cuda"].
Proof. reflexivity. Qed.

Example build_shared_cuda_4 :
  build (instance "4.3.4"
           {| shared := true; cuda := true; cuda_arch := ["none"] |} [] "gcc"
           no_tools)
  = ConflictsInSpecError
      ["Only ~shared supported with +cuda";
       "CUDA support only in libxc 5.0.0 and above"].
Proof. reflexivity. Qed.

Lemma violated_reported s c :
  c ∈ conflicts → violated s c = true → msg c ∈ conflict_messages s.
Proof.
  intros Hc Hviolated. unfold conflict_messages.
  apply list_elem_of_fmap_2. by apply list_elem_of_filter.
Qed.

(** A reported message aborts the build before any of its steps. *)
Lemma reported_aborts self message :
  message ∈ conflict_messages (spec self) →
  ∃ messages, build self = ConflictsInSpecError messages ∧ message ∈ messages.
Proof.
  intros Hmessage. unfold build.
  destruct (conflict_messages (spec self)) as [| m messages] eqn:Hconflicts.
  - by apply not_elem_of_nil in Hmessage.
  - by exists (m :: messages).
Qed.

(** C3: every selection of variants that has both the cuda option and the
    shared-library option is rejected before compilation, with the
    declared message "Only ~shared supported with +cuda". *)
Theorem conflict_shared_cuda (self : Libxc) :
  shared (variants (spec self)) = true →
  cuda (variants (spec self)) = true →
  ∃ messages,
    build self = ConflictsInSpecError messages
    ∧ "Only ~shared supported with +cuda" ∈ messages.
Proof.
  intros Hshared Hcuda. apply reported_aborts.
  apply (violated_reported (spec self)
           {| conflict_spec := [VariantOn "shared"; VariantOn "cuda"];
              when_spec := [];
              msg := "Only ~shared supported with +cuda" |}).
  - apply list_elem_of_here.
  - unfold violated, satisfies. simpl. unfold variant_flag. simpl.
    by rewrite Hshared, Hcuda.
Qed.

Lemma conflict_shared_cuda_witness :
  ∃ messages,
    build (instance "5.0.0"
             {| shared := true; cuda := true; cuda_arch := ["70"] |} [] "gcc"
             no_tools)
    = ConflictsInSpecError messages
    ∧ "Only ~shared supported with +cuda" ∈ messages.
Proof.
  apply conflict_shared_cuda; reflexivity.
Defined.

(** The releases of the table, as versions. *)
Lemma versions_lookup_is_Some v :
  is_Some (versions !! v) ↔ v ∈ (Version ∘ fst) <$> version_directives.
Proof.
  unfold versions. simpl. rewrite !lookup_insert_is_Some', lookup_empty.
  rewrite !elem_of_cons, elem_of_nil. split.
  - intros H.
    repeat (destruct H as [<- | H];
            [repeat ((left; reflexivity) || right) |]).
    by apply is_Some_None in H.
  - intros H.
    repeat (destruct H as [-> | H];
            [repeat ((left; reflexivity) || right) |]).
    done.
Qed.

(** On the releases of the table, the range [@:4] is the versions below
    5.0.0. *)
Lemma release_upto_4_iff_below_5 v :
  is_Some (versions !! v) →
  in_range_upto (Version "4") v = version_lt v (Version "5.0.0").
Proof.
  rewrite versions_lookup_is_Some. simpl.
  rewrite !elem_of_cons, elem_of_nil.
  intros H. repeat (destruct H as [-> | H]; [reflexivity |]). done.
Qed.

(** So it is on every version that starts with a number other than 5. *)
Lemma numbered_upto_4_iff_below_5 (a : N) (rest : ver) :
  a ≠ 5%N →
  in_range_upto (Version "4") (Num a :: rest)
  = version_lt (Num a :: rest) (Version "5.0.0").
Proof.
  intros Ha.
  change (Version "4") with [Num 4].
  change (Version "5.0.0") with [Num 5; Num 0; Num 0].
  unfold in_range_upto, version_eqb, version_lt, is_prefix, segment_eqb,
    segment_lt, infinity_rank.
  destruct (N.eqb_spec 4 a) as [<- | H4]; [by destruct rest |].
  destruct (N.eqb_spec a 4) as [-> | _]; [done |].
  destruct (N.eqb_spec a 5) as [-> | _]; [done |].
  destruct (N.ltb_spec a 4), (N.ltb_spec a 5); simpl; (done || lia).
Qed.

(** C4, as the code has it: for every build instance whose version lies in
    the range [@:4], that is up to and including the 4.x series, selecting
    the cuda option is rejected with the message "CUDA support only in
    libxc 5.0.0 and above"; the releases of the table below 5.0.0 are all
    in that range. *)
Theorem conflict_cuda_below_threshold (self : Libxc) :
  cuda (variants (spec self)) = true →
  in_range_upto (Version "4") (self_version self) = true
  ∨ (is_Some (versions !! self_version self)
     ∧ version_lt (self_version self) (Version "5.0.0") = true) →
  ∃ messages,
    build self = ConflictsInSpecError messages
    ∧ "CUDA support only in libxc 5.0.0 and above" ∈ messages.
Proof.
  intros Hcuda Hversion. unfold self_version in Hversion.
  assert (Hrange : in_range_upto (Version "4") (version (spec self)) = true).
  { destruct Hversion as [Hrange | [Hrelease Hbelow]]; [done |].
    by rewrite (release_upto_4_iff_below_5 _ Hrelease). }
  apply reported_aborts.
  apply (violated_reported (spec self)
           {| conflict_spec := [VariantOn "cuda"];
              when_spec := [VersionUpTo (Version "4")];
              msg := "CUDA support only in libxc 5.0.0 and above" |}).
  - apply list_elem_of_further, list_elem_of_here.
  - unfold violated, satisfies. simpl. unfold variant_flag. simpl.
    by rewrite Hrange, Hcuda.
Qed.

Lemma conflict_cuda_below_threshold_witness :
  (∃ messages,
     build (instance "4.3.4" (gpu_variants "70") [] "gcc" no_tools)
     = ConflictsInSpecError messages
     ∧ "CUDA support only in libxc 5.0.0 and above" ∈ messages)
  ∧ (∃ messages,
       build (instance "2.2.1" (gpu_variants "none") [] "gcc" no_tools)
       = ConflictsInSpecError messages
       ∧ "CUDA support only in libxc 5.0.0 and above" ∈ messages).
Proof.
  split.
  - apply conflict_cuda_below_threshold; [reflexivity |].
    left. reflexivity.
  - apply conflict_cuda_below_threshold; [reflexivity |].
    right. split; [| reflexivity].
    apply (bool_decide_unpack _). vm_compute. exact I.
Defined.

Example version_lt_5_0rc1 :
  version_lt (Version "5.0rc1") (Version "5.0.0") = true
  ∧ in_range_upto (Version "4") (Version "5.0rc1") = false.
Proof. split; reflexivity. Qed.

(** Below 5.0.0 is more than the range [@:4]: a release candidate 5.0rc1
    sorts below 5.0.0 and is not in the range, so no rule rejects it with
    the cuda option, and the build goes on to the configure step. *)
Lemma cuda_below_5_counterexample :
  (let self := instance "5.0rc1" (gpu_variants "70") [] "gcc" no_tools in
   cuda (variants (spec self)) = true
   ∧ version_lt (self_version self) (Version "5.0.0") = true
   ∧ in_range_upto (Version "4") (self_version self) = false
   ∧ build self
     = Configured
         [AppendFlagsEnv "CFLAGS" "-O2" " "; AppendFlagsEnv "FCFLAGS" "-O2" " ";
          SetEnv "CCLD" "/opt/cuda/bin/nvcc -ccbin /spack/env/gcc/gcc";
          SetEnv "CC" "/opt/cuda/bin/nvcc -x cu -ccbin /spack/env/gcc/gcc";
          AppendFlagsEnv "CFLAGS" "-arch=sm_70" " "]
         ["--disable-shared"; "--enable-cuda"])
  ∧ ¬ (∀ self : Libxc,
         cuda (variants (spec self)) = true →
         version_lt (self_version self) (Version "5.0.0") = true →
         ∃ messages,
           build self = ConflictsInSpecError messages
           ∧ "CUDA support only in libxc 5.0.0 and above" ∈ messages).
Proof.
  split.
  - repeat split; vm_compute; reflexivity.
  - intros Hclaim.
    destruct (Hclaim (instance "5.0rc1" (gpu_variants "70") [] "gcc" no_tools)
                eq_refl eq_refl) as (messages & Hbuild & _).
    vm_compute in Hbuild. discriminate.
Qed.

(** * The release table *)

Example versions_4_2_3 :
  versions !! Version "4.2.3"
  = Some "02e49e9ba7d21d18df17e9e57eae861e6ce05e65e966e1e832475aa09e344256".
Proof. vm_compute. reflexivity. Qed.

Example versions_unknown : versions !! Version "5.1.0" = None.
Proof. vm_compute. reflexivity. Qed.

(** C8: every declared version identifier is mapped by the release table to
    one fixed sha256 value, the one declared with it (5.0.0 to
    1cdc57930f7b57da4eb9b2c55a50ba1c2c385936ddaf5582fee830994461a892), and
    each version appears at most once in the table, as a string and as a
    version; no two releases share a checksum. *)
Theorem versions_checksums :
  Forall (λ d, versions !! Version d.1 = Some d.2) version_directives
  ∧ versions !! Version "5.0.0"
    = Some "1cdc57930f7b57da4eb9b2c55a50ba1c2c385936ddaf5582fee830994461a892"
  ∧ NoDup (fst <$> version_directives)
  ∧ NoDup ((Version ∘ fst) <$> version_directives)
  ∧ NoDup (snd <$> version_directives)
  ∧ size versions = length version_directives.
Proof.
  split; [| split; [| split; [| split; [| split]]]].
  - repeat constructor; vm_compute; reflexivity.
  - vm_compute. reflexivity.
  - apply (bool_decide_unpack _). vm_compute. exact I.
  - apply (bool_decide_unpack _). vm_compute. exact I.
  - apply (bool_decide_unpack _). vm_compute. exact I.
  - vm_compute. reflexivity.
Qed.

(** * Further properties of the locator *)

Example libs_shared_off :
  libs (instance "5.0.0" (gpu_variants "70") ["fortran"] "gcc" no_tools)
  = inr [["/opt/libxc"; "lib"; "libxcf90.a"];
         ["/opt/libxc"; "lib"; "libxcf03.a"];
         ["/opt/libxc"; "lib"; "libxc.a"]].
Proof. reflexivity. Qed.

(** X1: the locator looks at the query parameters only to see whether
    "static" and whether "fortran" are among them: two requests that agree
    on these two, whatever else they hold, in whatever order and however
    often, ask for the same search and get the same files. *)
Theorem libs_depends_on_static_and_fortran_only
    (self : Libxc) (q1 q2 : list string) :
  ("static" ∈ q1 ↔ "static" ∈ q2) →
  ("fortran" ∈ q1 ↔ "fortran" ∈ q2) →
  libs_search (with_query self q1) = libs_search (with_query self q2)
  ∧ libs (with_query self q1) = libs (with_query self q2).
Proof.
  intros Hstatic Hfortran. unfold libs, libs_search, libs_with. simpl.
  by rewrite (bool_decide_ext _ _ Hstatic), (bool_decide_ext _ _ Hfortran).
Qed.

Lemma libs_depends_on_static_and_fortran_only_witness :
  let self := instance "4.3.4" default_variants [] "gcc" no_tools in
  libs_search (with_query self ["fortran"; "static"])
  = libs_search (with_query self ["static"; "c"; "fortran"; "fortran"])
  ∧ libs (with_query self ["fortran"; "static"])
    = libs (with_query self ["static"; "c"; "fortran"; "fortran"]).
Proof.
  intros self.
  apply (libs_depends_on_static_and_fortran_only self);
    split; intros _; apply (bool_decide_unpack _); vm_compute; exact I.
Defined.

(** X2: a package configured with --disable-shared is never searched for
    shared libraries: whatever the query, the search is for static
    libraries and every file returned is a static one. *)
Theorem libs_static_when_configured_without_shared (self : Libxc) :
  configure_args self !! 0%nat = Some "--disable-shared" →
  search_shared (libs_search self) = false
  ∧ Forall (artifact false (search_libraries (libs_search self)))
           (returned (libs self)).
Proof.
  unfold configure_args. rewrite satisfies_shared. simpl.
  rewrite libs_is_search, libs_search_shared.
  destruct (shared (variants (spec self))); [done |]. intros _.
  split; [done |]. apply find_libraries_artifact.
Qed.

Lemma libs_static_when_configured_without_shared_witness :
  let self := instance "5.0.0" (gpu_variants "70") ["fortran"] "gcc" no_tools in
  search_shared (libs_search self) = false
  ∧ Forall (artifact false (search_libraries (libs_search self)))
           (returned (libs self)).
Proof.
  intros self.
  apply (libs_static_when_configured_without_shared self). reflexivity.
Defined.

(** X3: without "fortran" among the query parameters the search is for the
    base library alone, so no binding library is ever returned: every file
    found is libxc.so, or libxc.a for a static search. *)
Theorem libs_without_fortran (self : Libxc) :
  "fortran" ∉ extra_parameters (last_query (spec self)) →
  search_libraries (libs_search self) = ["libxc"]
  ∧ Forall (λ f : found,
              last f = Some (if search_shared (libs_search self)
                             then "libxc.so" else "libxc.a"))
           (returned (libs self)).
Proof.
  intros Hq.
  assert (Hnames : search_libraries (libs_search self) = ["libxc"]).
  { unfold libs_search, libs_with. simpl.
    by rewrite bool_decide_eq_false_2 by done. }
  split; [done |].
  pose proof (find_libraries_artifact (search_libraries (libs_search self))
                (search_root (libs_search self))
                (search_shared (libs_search self))
                (search_recursive (libs_search self))) as Hfound.
  rewrite <- libs_is_search, Hnames in Hfound.
  eapply Forall_impl; [exact Hfound |].
  intros f (lib & ->%list_elem_of_singleton & ->).
  by destruct (search_shared (libs_search self)).
Qed.

Lemma libs_without_fortran_witness :
  let self := instance "5.0.0" default_variants ["static"] "gcc" no_tools in
  search_libraries (libs_search self) = ["libxc"]
  ∧ Forall (λ f : found,
              last f = Some (if search_shared (libs_search self)
                             then "libxc.so" else "libxc.a"))
           (returned (libs self)).
Proof.
  intros self. apply (libs_without_fortran self).
  apply (bool_decide_unpack _). vm_compute. exact I.
Defined.

(** * Further properties of the environment preparer *)

(** X4: the preparer neither reads nor drops what was requested before: run
    after any earlier requests, it returns what it returns on a fresh
    environment object and leaves the earlier requests followed by the
    ones it makes on a fresh object. *)
Theorem setup_build_environment_after_requests
    (self : Libxc) (env : EnvironmentModifications) :
  setup_build_environment self env
  = ((setup_build_environment self []).1,
     env ++ (setup_build_environment self []).2).
Proof. by rewrite !setup_build_environment_unfold. Qed.

(** X5: of the selected [cuda_arch] values only the first one counts: two
    builds that differ in the further values only make the same requests
    and end the same way. *)
Theorem setup_build_environment_first_arch_only
    (self : Libxc) (target : string) (others1 others2 : list string)
    (env : EnvironmentModifications) :
  setup_build_environment (with_cuda_arch self (target :: others1)) env
  = setup_build_environment (with_cuda_arch self (target :: others2)) env.
Proof.
  rewrite !setup_build_environment_unfold.
  unfold completion, accelerated_requests. simpl.
  by destruct (cuda (variants (spec self))).
Qed.

Example setup_build_environment_two_archs :
  (setup_build_environment
     (instance "5.0.0"
        {| shared := false; cuda := true; cuda_arch := ["70"; "80"] |} []
        "gcc" no_tools) []).2
  = [AppendFlagsEnv "CFLAGS" "-O2" " "; AppendFlagsEnv "FCFLAGS" "-O2" " ";
     SetEnv "CCLD" "/opt/cuda/bin/nvcc -ccbin /spack/env/gcc/gcc";
     SetEnv "CC" "/opt/cuda/bin/nvcc -x cu -ccbin /spack/env/gcc/gcc";
     AppendFlagsEnv "CFLAGS" "-arch=sm_70" " "].
Proof. reflexivity. Qed.

(** X6: a build without the cuda option never touches the compiler: the
    run returns, it makes the optimization requests and nothing after them,
    CC and CCLD keep their values and CFLAGS gets the optimization flags
    alone. *)
Theorem setup_build_environment_without_cuda
    (self : Libxc) (env : EnvironmentModifications) :
  cuda (variants (spec self)) = false →
  let run := setup_build_environment self env in
  run.1 = inr tt
  ∧ Forall (λ m, modified m ∈ ["AR"; "CFLAGS"; "FCFLAGS"])
           (drop (length env) run.2)
  ∧ ∀ environ : gmap string string,
      let before := apply_modifications env environ in
      let after := apply_modifications run.2 environ in
      after !! "CC" = before !! "CC"
      ∧ after !! "CCLD" = before !! "CCLD"
      ∧ after !! "CFLAGS"
        = Some (appended (before !! "CFLAGS")
                  (if (compiler_name self =? "intel")%string
                   then "-O2 -xSSE4.2 -axAVX,CORE-AVX2 -ipo" else "-O2") " ").
Proof.
  intros Hcuda run. subst run. rewrite setup_build_environment_unfold.
  unfold completion, accelerated_requests. rewrite Hcuda, app_nil_r. simpl.
  split; [done |]. split.
  - rewrite drop_app_length.
    unfold general_requests, intel_requests.
    destruct (compiler_name self =? "intel")%string;
      [destruct (which self "xiar") |];
      repeat constructor; simpl; set_solver.
  - intros environ. rewrite apply_modifications_app.
    destruct (general_requests_environ self (apply_modifications env environ))
      as (HCFLAGS & _ & _ & HCC & HCCLD).
    split; [exact HCC |]. split; [exact HCCLD | exact HCFLAGS].
Qed.

Lemma setup_build_environment_without_cuda_witness :
  let self := instance "4.3.4" default_variants [] "intel" intel_tools in
  let environ : gmap string string := <["CC" := "icc"]> ∅ in
  let run := setup_build_environment self [SetEnv "CFLAGS" "-g"] in
  run.1 = inr tt
  ∧ apply_modifications run.2 environ !! "CC" = Some "icc"
  ∧ apply_modifications run.2 environ !! "CCLD" = None
  ∧ apply_modifications run.2 environ !! "CFLAGS"
    = Some "-g -O2 -xSSE4.2 -axAVX,CORE-AVX2 -ipo".
Proof.
  intros self environ run.
  destruct (setup_build_environment_without_cuda self [SetEnv "CFLAGS" "-g"]
              eq_refl) as (Hrun & _ & Henv).
  split; [exact Hrun |]. exact (Henv environ).
Defined.

(** X7: in an accelerated build with a target other than none, CFLAGS ends
    up as its earlier value, then the optimization flags, then the
    architecture flag, in this order; FCFLAGS gets the optimization flags
    and never the architecture flag. *)
Theorem setup_build_environment_cuda_flags_order
    (self : Libxc) (env : EnvironmentModifications)
    (target : string) (others : list string) :
  cuda (variants (spec self)) = true →
  cuda_arch (variants (spec self)) = target :: others →
  target ≠ "none" →
  let flags := if (compiler_name self =? "intel")%string
               then "-O2 -xSSE4.2 -axAVX,CORE-AVX2 -ipo" else "-O2" in
  ∀ environ : gmap string string,
    let before := apply_modifications env environ in
    let after :=
      apply_modifications (setup_build_environment self env).2 environ in
    after !! "CFLAGS"
    = Some (appended (before !! "CFLAGS") flags " "
            +:+ " -arch=sm_" +:+ target)
    ∧ after !! "FCFLAGS" = Some (appended (before !! "FCFLAGS") flags " ").
Proof.
  intros Hcuda Harch Htarget flags environ.
  rewrite setup_build_environment_unfold. simpl.
  rewrite (accelerated_requests_cuda self Hcuda).
  assert (Hfirst : first_arch self = target)
    by (unfold first_arch; by rewrite Harch).
  rewrite Hfirst, !apply_modifications_app.
  set (before := apply_modifications env environ).
  rewrite <- apply_modifications_app. fold (nvcc_requests self).
  destruct (nvcc_requests_environ self target
              (apply_modifications (general_requests self) before))
    as (_ & _ & HCFLAGS & HFCFLAGS & _).
  destruct (general_requests_environ self before) as (HC & HF & _).
  apply String.eqb_neq in Htarget. rewrite Htarget in HCFLAGS.
  split.
  - rewrite HCFLAGS, HC.
    by rewrite appended_to_nonempty
      by apply appended_nonempty, optflags_nonempty.
  - by rewrite HFCFLAGS, HF.
Qed.

Lemma setup_build_environment_cuda_flags_order_witness :
  let self := instance "5.0.0" (gpu_variants "70") [] "gcc" no_tools in
  let environ : gmap string string := <["CFLAGS" := "-g"]> ∅ in
  let after :=
    apply_modifications (setup_build_environment self []).2 environ in
  after !! "CFLAGS" = Some "-g -O2 -arch=sm_70"
  ∧ after !! "FCFLAGS" = Some "-O2".
Proof.
  intros self environ after.
  apply (setup_build_environment_cuda_flags_order self [] "70" []);
    [reflexivity | reflexivity | discriminate].
Defined.

(** * Further properties of the configure arguments *)

(** X8: the configure arguments tell the selection apart: two packages get
    the same arguments exactly when they agree on the [shared] and on the
    [cuda] variant; nothing else of the build shows in them. *)
Theorem configure_args_tell_selection (a b : Libxc) :
  configure_args a = configure_args b
  ↔ shared (variants (spec a)) = shared (variants (spec b))
    ∧ cuda (variants (spec a)) = cuda (variants (spec b)).
Proof.
  unfold configure_args. rewrite !satisfies_shared, !satisfies_cuda.
  destruct (shared (variants (spec a))), (cuda (variants (spec a))),
    (shared (variants (spec b))), (cuda (variants (spec b)));
    split; (done || by intros []).
Qed.

(** * Further properties of conflict validation *)

Lemma violated_shared_cuda s :
  violated s {| conflict_spec := [VariantOn "shared"; VariantOn "cuda"];
                when_spec := [];
                msg := "Only ~shared supported with +cuda" |}
  = shared (variants s) && cuda (variants s).
Proof.
  unfold violated, satisfies. simpl. unfold variant_flag. simpl.
  by rewrite andb_true_r.
Qed.

Lemma violated_cuda_upto_4 s :
  violated s {| conflict_spec := [VariantOn "cuda"];
                when_spec := [VersionUpTo (Version "4")];
                msg := "CUDA support only in libxc 5.0.0 and above" |}
  = in_range_upto (Version "4") (version s) && cuda (variants s).
Proof.
  unfold violated, satisfies. simpl. unfold variant_flag. simpl.
  by rewrite !andb_true_r.
Qed.

(** The messages reported for a selection, rule by rule. *)
Lemma conflict_messages_by_rule s :
  conflict_messages s
  = (if shared (variants s) && cuda (variants s)
     then ["Only ~shared supported with +cuda"] else [])
    ++ (if in_range_upto (Version "4") (version s) && cuda (variants s)
        then ["CUDA support only in libxc 5.0.0 and above"] else []).
Proof.
  unfold conflict_messages, conflicts.
  rewrite !filter_cons, filter_nil.
  rewrite violated_shared_cuda, violated_cuda_upto_4.
  destruct (shared (variants s) && cuda (variants s)),
    (in_range_upto (Version "4") (version s) && cuda (variants s));
    reflexivity.
Qed.

(** X9: conflict validation rejects a build exactly when the cuda option
    is selected together with the shared option or on a version of the
    range [@:4]; every other selection passes. *)
Theorem build_rejected_iff (self : Libxc) :
  (∃ messages, build self = ConflictsInSpecError messages)
  ↔ cuda (variants (spec self)) = true
    ∧ (shared (variants (spec self)) = true
       ∨ in_range_upto (Version "4") (self_version self) = true).
Proof.
  unfold build, self_version. rewrite conflict_messages_by_rule.
  destruct (shared (variants (spec self))), (cuda (variants (spec self))),
    (in_range_upto (Version "4") (version (spec self))); simpl;
    try (split; [intros _; split; [done | by (left + right)] | by eexists]);
    (split; [| by intros [? [? | ?]]]);
    intros [messages Hbuild];
    by destruct (setup_build_environment self []) as [[e | []] env].
Qed.



(** X11: a build that gets as far as the configure step with --enable-cuda
    is a static one on a version outside the range [@:4]: its arguments
    are --disable-shared and --enable-cuda, never --enable-shared with
    --enable-cuda. *)
Theorem build_configured_with_cuda
    (self : Libxc) (env : EnvironmentModifications) (args : list string) :
  build self = Configured env args →
  "--enable-cuda" ∈ args →
  args = ["--disable-shared"; "--enable-cuda"]
  ∧ shared (variants (spec self)) = false
  ∧ in_range_upto (Version "4") (self_version self) = false
  ∧ env = (setup_build_environment self []).2.
Proof.
  unfold build, self_version. rewrite conflict_messages_by_rule.
  unfold configure_args. rewrite satisfies_shared, satisfies_cuda.
  destruct (shared (variants (spec self))), (cuda (variants (spec self))),
    (in_range_upto (Version "4") (version (spec self))); simpl; try done;
    destruct (setup_build_environment self []) as [[e | []] env'];
    try done; intros [= <- <-] Hargs; try done;
    by repeat (apply elem_of_cons in Hargs as [? | Hargs]; [done |]);
       apply elem_of_nil in Hargs.
Qed.

Lemma build_configured_with_cuda_witness :
  let self := instance "5.0.0" (gpu_variants "70") [] "gcc" no_tools in
  shared (variants (spec self)) = false
  ∧ in_range_upto (Version "4") (self_version self) = false.
Proof.
  intros self.
  destruct (build_configured_with_cuda self
              (setup_build_environment self []).2
              ["--disable-shared"; "--enable-cuda"])
    as (_ & Hshared & Hrange & _).
  - reflexivity.
  - apply (bool_decide_unpack _). vm_compute. exact I.
  - split; [exact Hshared | exact Hrange].
Defined.

(** * Patches *)

Example applicable_patches_5_gcc :
  applicable_patches (instance "5.0.0" default_variants [] "gcc" no_tools)
  = ["0001-Bugfix-avoid-implicit-pointer-cast-to-make-libxc-com.patch";
     "0002-Mark-xc_erfcx-a-GPU_FUNCTION.patch"].
Proof. reflexivity. Qed.

Example applicable_patches_4_nvhpc :
  applicable_patches (instance "4.3.4" default_variants [] "nvhpc" no_tools)
  = ["nvhpc-configure.patch"].
Proof. reflexivity. Qed.

Example applicable_patches_develop_nvhpc :
  applicable_patches (instance "develop" default_variants [] "nvhpc" no_tools)
  = ["nvhpc-configure.patch"; "nvhpc-libtool.patch"].
Proof. reflexivity. Qed.

(** The patches of a build, rule by rule. *)
Lemma applicable_patches_by_rule self :
  applicable_patches self
  = (if is_prefix (Version "5.0.0") (self_version self)
     then ["0001-Bugfix-avoid-implicit-pointer-cast-to-make-libxc-com.patch";
           "0002-Mark-xc_erfcx-a-GPU_FUNCTION.patch"]
     else [])
    ++ (if (compiler_name self =? "nvhpc")%string
        then ["nvhpc-configure.patch"] else [])
    ++ (if is_prefix (Version "develop") (self_version self)
           && (compiler_name self =? "nvhpc")%string
        then ["nvhpc-libtool.patch"] else []).
Proof.
  unfold applicable_patches, patches. rewrite !filter_cons, filter_nil.
  cbn [forallb meets patch_when patch_file].
  destruct (is_prefix (Version "5.0.0") (self_version self)),
    (is_prefix (Version "develop") (self_version self)),
    (compiler_name self =? "nvhpc")%string; reflexivity.
Qed.

Ltac in_list := apply (bool_decide_unpack _); vm_compute; exact I.
Ltac not_in_list H :=
  apply (bool_decide_pack _) in H; vm_compute in H; destruct H.

(** Goals made of memberships in explicit lists and of equations between
    booleans. *)
Ltac settle :=
  lazymatch goal with
  | |- _ ∧ _ => split; settle
  | |- _ ↔ _ => split; settle
  | |- _ → _ =>
      let H := fresh in
      intros H; first [discriminate H | by not_in_list H | settle]
  | |- _ ∈ _ => in_list
  | |- _ => done
  end.

(** X12: the two patches declared for 5.0.0 go together: each of them is
    applied exactly to the builds of the 5.0.0 series, whatever the
    compiler and the variants, so also to builds without the cuda option;
    and the libtool patch for nvhpc is never applied without the configure
    patch for nvhpc. *)
Theorem patches_go_together (self : Libxc) :
  ("0001-Bugfix-avoid-implicit-pointer-cast-to-make-libxc-com.patch"
     ∈ applicable_patches self
   ↔ is_prefix (Version "5.0.0") (self_version self) = true)
  ∧ ("0002-Mark-xc_erfcx-a-GPU_FUNCTION.patch" ∈ applicable_patches self
     ↔ is_prefix (Version "5.0.0") (self_version self) = true)
  ∧ ("nvhpc-libtool.patch" ∈ applicable_patches self →
     "nvhpc-configure.patch" ∈ applicable_patches self
     ∧ compiler_name self = "nvhpc").
Proof.
  rewrite applicable_patches_by_rule.
  destruct (String.eqb_spec (compiler_name self) "nvhpc") as [Hnvhpc | Hother];
    destruct (is_prefix (Version "5.0.0") (self_version self)),
      (is_prefix (Version "develop") (self_version self)); simpl; settle.
Qed.

(** X13: for a release of the table, the patches applied are the two 5.0.0
    patches when the release is 5.0.0, followed by the configure patch
    when the compiler is nvhpc; the libtool patch, declared for develop,
    is applied to no release of the table. *)
Theorem patches_of_release (self : Libxc) :
  is_Some (versions !! self_version self) →
  applicable_patches self
  = (if version_eqb (self_version self) (Version "5.0.0")
     then ["0001-Bugfix-avoid-implicit-pointer-cast-to-make-libxc-com.patch";
           "0002-Mark-xc_erfcx-a-GPU_FUNCTION.patch"]
     else [])
    ++ (if (compiler_name self =? "nvhpc")%string
        then ["nvhpc-configure.patch"] else []).
Proof.
  rewrite applicable_patches_by_rule, versions_lookup_is_Some. simpl.
  rewrite !elem_of_cons, elem_of_nil. intros H.
  repeat (destruct H as [-> | H];
          [by destruct (compiler_name self =? "nvhpc")%string |]).
  done.
Qed.

Lemma patches_of_release_witness :
  applicable_patches (instance "5.0.0" (gpu_variants "70") [] "nvhpc" no_tools)
  = ["0001-Bugfix-avoid-implicit-pointer-cast-to-make-libxc-com.patch";
     "0002-Mark-xc_erfcx-a-GPU_FUNCTION.patch"; "nvhpc-configure.patch"].
Proof.
  apply (patches_of_release
           (instance "5.0.0" (gpu_variants "70") [] "nvhpc" no_tools)).
  apply (bool_decide_unpack _). vm_compute. exact I.
Defined.

(** X14: the only release of the table that gets past conflict validation
    with the cuda option is 5.0.0, and it is built with both 5.0.0
    patches. *)
Theorem build_release_with_cuda
    (self : Libxc) (env : EnvironmentModifications) (args : list string) :
  build self = Configured env args →
  cuda (variants (spec self)) = true →
  is_Some (versions !! self_version self) →
  self_version self = Version "5.0.0"
  ∧ ["0001-Bugfix-avoid-implicit-pointer-cast-to-make-libxc-com.patch";
     "0002-Mark-xc_erfcx-a-GPU_FUNCTION.patch"] ⊆ applicable_patches self.
Proof.
  intros Hbuild Hcuda Hrelease.
  assert (Hrange : in_range_upto (Version "4") (self_version self) = false).
  { unfold build in Hbuild. rewrite conflict_messages_by_rule, Hcuda in Hbuild.
    fold (self_version self) in Hbuild.
    destruct (in_range_upto (Version "4") (self_version self)); [| done].
    by destruct (shared (variants (spec self))). }
  assert (Hversion : self_version self = Version "5.0.0").
  { apply versions_lookup_is_Some in Hrelease. simpl in Hrelease.
    rewrite !elem_of_cons, elem_of_nil in Hrelease.
    destruct Hrelease as [-> | Hrelease]; [done |].
    repeat (destruct Hrelease as [Hv | Hrelease];
            [by rewrite Hv in Hrange |]).
    done. }
  split; [done |].
  rewrite applicable_patches_by_rule, Hversion.
  change (is_prefix (Version "5.0.0") (Version "5.0.0")) with true.
  intros file Hfile. apply elem_of_app. by left.
Qed.

Lemma build_release_with_cuda_witness :
  let self := instance "5.0.0" (gpu_variants "70") [] "gcc" no_tools in
  self_version self = Version "5.0.0"
  ∧ ["0001-Bugfix-avoid-implicit-pointer-cast-to-make-libxc-com.patch";
     "0002-Mark-xc_erfcx-a-GPU_FUNCTION.patch"] ⊆ applicable_patches self.
Proof.
  intros self.
  apply (build_release_with_cuda self (setup_build_environment self []).2
           (configure_args self)); [reflexivity | reflexivity |].
  apply (bool_decide_unpack _). vm_compute. exact I.
Defined.
